(** * ONNX model analyzer: a shallow embedding of [analyze_model.py]

    The script loads an ONNX model, prints its declared inputs and outputs,
    opens an onnxruntime session, runs one inference on a random tensor and
    three more on differently normalised random tensors.

    The embedding keeps the control flow of the script.  Console output and
    calls into [onnx], [onnxruntime] and [numpy] are recorded in a trace; an
    exception is a value that aborts the rest of a block until a handler
    takes it.  The three libraries are opaque: what they answer is given by an
    environment record.

    The script is embedded twice.  The first embedding runs it on a console
    that takes every line, so that [print] never raises; the reports are
    described on it.  The module [Io] is the same script on a console that
    can refuse a line; what the script lets through to its caller is
    settled there. *)

From Stdlib Require Import List String Ascii ZArith QArith Bool Arith Lia.
Import ListNotations.

Close Scope Q_scope.
Local Open Scope string_scope.
Local Open Scope list_scope.

(** ** Data of the ONNX model file *)

(** [TensorShapeProto.Dimension]: a protobuf [oneof] of [dim_value] (an
    int64) and [dim_param] (a string).  Reading the member that is not set
    gives the protobuf default, [0] or the empty string. *)
Inductive Dimension : Type :=
| DimValue (v : Z)
| DimParam (p : string)
| DimUnset.

Definition dim_value (d : Dimension) : Z :=
  match d with DimValue v => v | _ => 0%Z end.

Definition dim_param (d : Dimension) : string :=
  match d with DimParam p => p | _ => "" end.

Record TensorShapeProto : Type := { dim : list Dimension }.

Record TypeProto_Tensor : Type :=
  { elem_type : Z; shape : TensorShapeProto }.

Record TypeProto : Type := { tensor_type : TypeProto_Tensor }.

Record ValueInfoProto : Type :=
  { name : string; type : TypeProto }.

Record GraphProto : Type :=
  { input : list ValueInfoProto; output : list ValueInfoProto }.

Record ModelProto : Type :=
  { producer_name : string;
    producer_version : string;
    model_version : Z;
    doc_string : string;
    graph : GraphProto }.

(** ** Python values the script handles *)

(** One element of a shape list: an [int], a [str] or [None] (onnxruntime
    reports [None] for a dimension it knows nothing about). *)
Inductive Dim : Type :=
| DInt (z : Z)
| DStr (s : string)
| DNone.

(** An exception instance; [str(e)] is its message. *)
Record PyExc : Type := { exc_class : string; exc_msg : string }.

Inductive PyResult (A : Type) : Type :=
| Ok (a : A)
| Raise (e : PyExc).
Arguments Ok {A} a.
Arguments Raise {A} e.

(** Truth value of an [int] and of a [str] in a Python condition. *)
Definition truthy_int (z : Z) : bool := negb (z =? 0)%Z.
Definition truthy_str (s : string) : bool :=
  match s with EmptyString => false | _ => true end.
Definition truthy_list {A} (l : list A) : bool :=
  match l with [] => false | _ => true end.

(** ** numpy arrays, symbolically *)

(** The input tensors are random; the script only builds them and hands them
    to the session.  [random_rand k s] is the array returned by the [k]-th
    call of [np.random.rand] during one analysis, of shape [s]. *)
Inductive ndarray : Type :=
| random_rand (k : nat) (s : list Dim)
| astype_float32 (a : ndarray)
| sub_scalar (a : ndarray) (c : Q)
| mul_scalar (a : ndarray) (c : Q)
| div_scalar (a : ndarray) (c : Q).

(** One output of [session.run].  The script reads [.shape] and [.dtype] and
    formats [.min()], [.max()], [.mean()] and [.std()] with [:.6f]; each of
    these may raise (an empty array has no minimum, a sequence output has no
    [shape]).  The fields hold the text that would be printed. *)
Record OutValue : Type :=
  { out_shape : PyResult string;
    out_dtype : PyResult string;
    out_min : PyResult string;
    out_max : PyResult string;
    out_mean : PyResult string;
    out_std : PyResult string }.

(** [NodeArg] of onnxruntime. *)
Record NodeArg : Type :=
  { na_name : string; na_shape : list Dim; na_type : string }.

Record InferenceSession : Type :=
  { get_inputs : list NodeArg;
    get_outputs : list NodeArg;
    run : string -> ndarray -> PyResult (list OutValue) }.

(** ** The environment: file system and libraries *)

Record Env : Type :=
  { os_path_exists : string -> bool;
    os_path_basename : string -> string;
    onnx_load : string -> PyResult ModelProto;
    ort_InferenceSession : string -> PyResult InferenceSession;
    (** [Some e] when [np.random.rand( *s )] raises [e] for the shape [s]. *)
    np_random_rand_raises : list Dim -> option PyExc }.

(** ** Traces *)

(** A piece of a printed line: literal text of the format string or a value
    substituted into it. *)
Inductive Piece : Type :=
| Lit (s : string)
| PStr (s : string)
| PInt (z : Z)
| PType (t : TypeProto)
| PShape (l : list Dim)
| PExc (e : PyExc).

Inductive LibCall : Type :=
| call_onnx_load (path : string)
| call_InferenceSession (path : string)
| call_random_rand (s : list Dim)
| call_session_run (input_name : string) (a : ndarray).

Inductive Event : Type :=
| Printed (line : list Piece)
| Called (c : LibCall).

(** ** The monad: a trace and a result or an exception *)

Definition M (A : Type) : Type := (list Event * PyResult A)%type.

Definition ret {A} (a : A) : M A := ([], Ok a).

Definition bind {A B} (m : M A) (f : A -> M B) : M B :=
  match m with
  | (t, Ok a) => let '(t', r) := f a in (t ++ t', r)
  | (t, Raise e) => (t, Raise e)
  end.

Definition raise {A} (e : PyExc) : M A := ([], Raise e).

(** [print] on a console that takes the line.  The module [Io] further down
    has the script on a console that can refuse a line, where [print]
    raises. *)
Definition print (line : list Piece) : M unit := ([Printed line], Ok tt).

Definition call {A} (c : LibCall) (r : PyResult A) : M A := ([Called c], r).

Definition lift {A} (r : PyResult A) : M A := ([], r).

(** [try: body  except Exception as e: handler e] *)
Definition try_except {A} (body : M A) (handler : PyExc -> M A) : M A :=
  match body with
  | (t, Ok a) => (t, Ok a)
  | (t, Raise e) => let '(t', r) := handler e in (t ++ t', r)
  end.

Notation "x <- c1 ;; c2" := (bind c1 (fun x => c2))
  (at level 61, c1 at next level, right associativity).
Notation "c1 ;; c2" := (bind c1 (fun _ => c2))
  (at level 61, right associativity).
Notation "' pat <- c1 ;; c2" :=
  (bind c1 (fun x => match x with pat => c2 end))
  (at level 61, pat pattern, c1 at next level, right associativity).

Definition trace {A} (m : M A) : list Event := fst m.
Definition result {A} (m : M A) : PyResult A := snd m.

(** [for x in l: body x] *)
Fixpoint for_each {A} (l : list A) (body : A -> M unit) : M unit :=
  match l with
  | [] => ret tt
  | x :: l' => body x ;; for_each l' body
  end.

(** [enumerate(l)], counting from [i]. *)
Fixpoint enumerate_from {A} (i : nat) (l : list A) : list (nat * A) :=
  match l with
  | [] => []
  | x :: l' => (i, x) :: enumerate_from (S i) l'
  end.

Definition enumerate {A} (l : list A) : list (nat * A) := enumerate_from 0 l.

(** [l[i]], raising [IndexError] out of range. *)
Definition IndexError : PyExc :=
  {| exc_class := "IndexError"; exc_msg := "list index out of range" |}.

Definition getitem {A} (l : list A) (i : nat) : PyResult A :=
  match nth_error l i with
  | Some x => Ok x
  | None => Raise IndexError
  end.

(** ** The script *)

(** Lines 42-49 and 62-69: the shape list built from the declared
    dimensions. *)
Definition static_dim (d : Dimension) : Dim :=
  if truthy_int (dim_value d) then DInt (dim_value d)
  else if truthy_str (dim_param d) then DStr (dim_param d)
  else DStr "unknown".

Definition static_shape (dims : list Dimension) : list Dim :=
  fold_left (fun shape d => shape ++ [static_dim d]) dims [].

(** Lines 41-50: the optional "Shape:" line of a declared tensor. *)
Definition print_static_shape (t : ValueInfoProto) : M unit :=
  let dims := dim (shape (tensor_type (type t))) in
  if truthy_list dims then
    print [Lit "  Shape: "; PShape (static_shape dims)]
  else ret tt.

(** Lines 36-51: one round of the loop over [model.graph.input]. *)
Definition print_input_tensor (i : nat) (input_tensor : ValueInfoProto)
  : M unit :=
  print [Lit "Input "; PInt (Z.of_nat i); Lit ":"] ;;
  print [Lit "  Name: "; PStr (name input_tensor)] ;;
  print [Lit "  Type: "; PType (type input_tensor)] ;;
  print_static_shape input_tensor ;;
  print [].

(** Lines 56-71: one round of the loop over [model.graph.output]. *)
Definition print_output_tensor (i : nat) (output_tensor : ValueInfoProto)
  : M unit :=
  print [Lit "Output "; PInt (Z.of_nat i); Lit ":"] ;;
  print [Lit "  Name: "; PStr (name output_tensor)] ;;
  print [Lit "  Type: "; PType (type output_tensor)] ;;
  print_static_shape output_tensor ;;
  print [].

(** Lines 24-31. *)
Definition model_information (env : Env) (model_path : string)
  : M ModelProto :=
  model <- call (call_onnx_load model_path) (onnx_load env model_path) ;;
  print [Lit "Producer: "; PStr (producer_name model)] ;;
  print [Lit "Version: "; PStr (producer_version model)] ;;
  print [Lit "Model Version: "; PInt (model_version model)] ;;
  print [Lit "Doc String: "; PStr (doc_string model)] ;;
  print [] ;;
  ret model.

(** Lines 34-71. *)
Definition tensor_information (model : ModelProto) : M unit :=
  print [Lit "=== INPUT INFORMATION ==="] ;;
  for_each (enumerate (input (graph model)))
    (fun '(i, t) => print_input_tensor i t) ;;
  print [Lit "=== OUTPUT INFORMATION ==="] ;;
  for_each (enumerate (output (graph model)))
    (fun '(i, t) => print_output_tensor i t).

Definition print_node_arg (meta : NodeArg) : M unit :=
  print [Lit "  Name: "; PStr (na_name meta)] ;;
  print [Lit "  Shape: "; PShape (na_shape meta)] ;;
  print [Lit "  Type: "; PStr (na_type meta)] ;;
  print [].

(** Lines 74-91. *)
Definition session_info (env : Env) (model_path : string)
  : M InferenceSession :=
  print [Lit "=== ONNX RUNTIME SESSION INFO ==="] ;;
  session <- call (call_InferenceSession model_path)
                  (ort_InferenceSession env model_path) ;;
  print [Lit "Runtime Input Info:"] ;;
  for_each (get_inputs session) print_node_arg ;;
  print [Lit "Runtime Output Info:"] ;;
  for_each (get_outputs session) print_node_arg ;;
  ret session.

(** Lines 99-104: dynamic dimensions become 1. *)
Definition is_dynamic (d : Dim) : bool :=
  match d with
  | DStr _ => true
  | DInt z => (z =? -1)%Z
  | DNone => false
  end.

Definition make_test_shape (input_shape : list Dim) : list Dim :=
  fold_left
    (fun test_shape d =>
       if is_dynamic d then test_shape ++ [DInt 1] else test_shape ++ [d])
    input_shape [].

(** [np.random.rand( *s )], the [k]-th call of an analysis.  Whether the
    call raises depends on the shape alone (a negative dimension, a
    dimension that is not an integer); exhausted memory is not modelled. *)
Definition np_random_rand (env : Env) (k : nat) (s : list Dim) : M ndarray :=
  call (call_random_rand s)
       (match np_random_rand_raises env s with
        | Some e => Raise e
        | None => Ok (random_rand k s)
        end).

Definition AttributeError : PyExc :=
  {| exc_class := "AttributeError";
     exc_msg := "'float' object has no attribute 'astype'" |}.

(** [np.random.rand( *s ).astype(np.float32)], the [k]-th draw of an
    analysis.  Called without arguments, that is for an empty shape,
    [np.random.rand] returns a Python float, and a float has no [astype]. *)
Definition random_float32 (env : Env) (k : nat) (s : list Dim) : M ndarray :=
  a <- np_random_rand env k s ;;
  match s with
  | [] => raise AttributeError
  | _ :: _ => ret (astype_float32 a)
  end.

Definition session_run (session : InferenceSession) (input_name : string)
  (a : ndarray) : M (list OutValue) :=
  call (call_session_run input_name a) (run session input_name a).

(** [result[0].field], already formatted. *)
Definition out0 (res : list OutValue) (field : OutValue -> PyResult string)
  : M string :=
  r <- lift (getitem res 0) ;;
  lift (field r).

(** Lines 94-116: the first inference, on a random tensor.  Returns what the
    later blocks still use. *)
Definition test_inference (session : InferenceSession)
  (env : Env) : M (string * list Dim) :=
  print [Lit "=== TEST INFERENCE ==="] ;;
  i0 <- lift (getitem (get_inputs session) 0) ;;
  let input_name := na_name i0 in
  i0' <- lift (getitem (get_inputs session) 0) ;;
  let input_shape := na_shape i0' in
  let test_shape := make_test_shape input_shape in
  print [Lit "Test input shape: "; PShape test_shape] ;;
  dummy_input <- random_float32 env 0 test_shape ;;
  res <- session_run session input_name dummy_input ;;
  s <- out0 res out_shape ;;
  print [Lit "Output shape: "; PStr s] ;;
  t <- out0 res out_dtype ;;
  print [Lit "Output dtype: "; PStr t] ;;
  mn <- out0 res out_min ;;
  mx <- out0 res out_max ;;
  print [Lit "Output range: ["; PStr mn; Lit ", "; PStr mx; Lit "]"] ;;
  av <- out0 res out_mean ;;
  print [Lit "Output mean: "; PStr av] ;;
  sd <- out0 res out_std ;;
  print [Lit "Output std: "; PStr sd] ;;
  ret (input_name, test_shape).

(** [d == n] for a shape element [d] and an [int] [n]. *)
Definition dim_eq_int (d : Dim) (n : Z) : bool :=
  match d with
  | DInt z => (z =? n)%Z
  | _ => false
  end.

Definition NCHW : string :=
  "Tensor format: NCHW (batch, channels, height, width)".
Definition NHWC : string :=
  "Tensor format: NHWC (batch, height, width, channels)".
Definition Unknown : string := "Tensor format: Unknown".

(** Lines 119-125. *)
Definition tensor_format (test_shape : list Dim) : M unit :=
  if (List.length test_shape =? 4)%nat then
    d1 <- lift (getitem test_shape 1) ;;
    if dim_eq_int d1 3 then print [Lit NCHW]
    else
      d3 <- lift (getitem test_shape 3) ;;
      if dim_eq_int d3 3 then print [Lit NHWC]
      else print [Lit Unknown]
  else ret tt.

(** Lines 131-135: the dictionary of probe inputs, in insertion order. *)
Definition normalized_inputs (env : Env) (test_shape : list Dim)
  : M (list (string * ndarray)) :=
  a <- random_float32 env 1 test_shape ;;
  b <- random_float32 env 2 test_shape ;;
  c <- random_float32 env 3 test_shape ;;
  ret [ ("0-1 normalization", a);
        ("[-1,1] normalization",
          mul_scalar (sub_scalar b (5 # 10)%Q) (2 # 1)%Q);
        ("ImageNet normalization",
          div_scalar (sub_scalar c (485 # 1000)%Q) (229 # 1000)%Q) ].

(** Lines 138-142: one probe, with its own handler. *)
Definition probe (session : InferenceSession) (input_name : string)
  (item : string * ndarray) : M unit :=
  let '(norm_name, norm_input) := item in
  try_except
    (norm_result <- session_run session input_name norm_input ;;
     mn <- out0 norm_result out_min ;;
     mx <- out0 norm_result out_max ;;
     sd <- out0 norm_result out_std ;;
     print [PStr norm_name; Lit ": Output range ["; PStr mn; Lit ", ";
            PStr mx; Lit "], std: "; PStr sd])
    (fun e => print [PStr norm_name; Lit ": Failed - "; PExc e]).

Definition newline : string := String (Ascii.ascii_of_nat 10) EmptyString.

(** Lines 128-142. *)
Definition normalization_estimation (env : Env) (session : InferenceSession)
  (input_name : string) (test_shape : list Dim) : M unit :=
  print [Lit (newline ++ "=== NORMALIZATION ESTIMATION ===")] ;;
  if (List.length test_shape =? 4)%nat then
    inputs <- normalized_inputs env test_shape ;;
    for_each inputs (probe session input_name)
  else ret tt.

(** Lines 24-116: everything up to and including the first inference. *)
Definition through_test_inference (env : Env) (model_path : string)
  : M (InferenceSession * string * list Dim) :=
  model <- model_information env model_path ;;
  tensor_information model ;;
  session <- session_info env model_path ;;
  '(input_name, test_shape) <- test_inference session env ;;
  ret (session, input_name, test_shape).

(** Lines 23-144: the body of the [try]. *)
Definition analyze_body (env : Env) (model_path : string) : M bool :=
  '(session, input_name, test_shape) <- through_test_inference env model_path ;;
  tensor_format test_shape ;;
  normalization_estimation env session input_name test_shape ;;
  ret true.

(** Lines 14-148. *)
Definition analyze_onnx_model (env : Env) (model_path : string) : M bool :=
  print [Lit "=== Analyzing ONNX model: "; PStr model_path; Lit " ==="] ;;
  if negb (os_path_exists env model_path) then
    print [Lit "ERROR: Model file not found: "; PStr model_path] ;;
    ret false
  else
    try_except (analyze_body env model_path)
      (fun e => print [Lit "ERROR: "; PExc e] ;; ret false).

(** ["=" * n] *)
Fixpoint str_repeat (s : string) (n : nat) : string :=
  match n with
  | O => ""
  | S n' => s ++ str_repeat s n'
  end.

Definition progress_banner (env : Env) (i n : nat) (model_path : string)
  : list Piece :=
  [Lit "🔍 Analyzing model "; PInt (Z.of_nat (i + 1)); Lit "/";
   PInt (Z.of_nat n); Lit ": "; PStr (os_path_basename env model_path)].
Definition success_banner : list Piece :=
  [Lit ("✅ Analysis completed successfully" ++ newline)].
Definition failure_banner : list Piece :=
  [Lit ("❌ Analysis failed" ++ newline)].
Definition separator : list Piece := [Lit (str_repeat "=" 80)].

(** Lines 163-171: one round of the loop of [main]; [n] is
    [len(args.model_paths)]. *)
Definition main_loop_body (env : Env) (n : nat) (item : nat * string)
  : M unit :=
  let '(i, model_path) := item in
  print (progress_banner env i n model_path) ;;
  ok <- analyze_onnx_model env model_path ;;
  (if ok : bool then print success_banner else print failure_banner) ;;
  if (i <? n - 1)%nat then
    print separator ;;
    print []
  else ret tt.

(** Lines 157-171: [main] after argument parsing; [model_paths] is
    [args.model_paths]. *)
Definition main (env : Env) (model_paths : list string) : M unit :=
  if (List.length model_paths =? 1)%nat then
    p <- lift (getitem model_paths 0) ;;
    analyze_onnx_model env p ;;
    ret tt
  else
    for_each (enumerate model_paths)
      (main_loop_body env (List.length model_paths)).

(** ** The script on a console that can refuse a line *)

(** What writing one line to standard output does: [Some e] when [print]
    raises [e] (a text the encoding of the console cannot take, a closed
    pipe), [None] when the line is written.  The definitions above are the
    script on a console that takes every line; the module [Io] is the same
    script, statement by statement, on any console. *)
Definition Stdout : Type := list Piece -> option PyExc.

Module Io.

Definition print (out : Stdout) (line : list Piece) : M unit :=
  match out line with
  | None => ([Printed line], Ok tt)
  | Some e => ([], Raise e)
  end.

Definition print_static_shape (out : Stdout) (t : ValueInfoProto) : M unit :=
  let dims := dim (shape (tensor_type (type t))) in
  if truthy_list dims then
    print out [Lit "  Shape: "; PShape (static_shape dims)]
  else ret tt.

Definition print_input_tensor (out : Stdout) (i : nat)
  (input_tensor : ValueInfoProto) : M unit :=
  print out [Lit "Input "; PInt (Z.of_nat i); Lit ":"] ;;
  print out [Lit "  Name: "; PStr (name input_tensor)] ;;
  print out [Lit "  Type: "; PType (type input_tensor)] ;;
  print_static_shape out input_tensor ;;
  print out [].

Definition print_output_tensor (out : Stdout) (i : nat)
  (output_tensor : ValueInfoProto) : M unit :=
  print out [Lit "Output "; PInt (Z.of_nat i); Lit ":"] ;;
  print out [Lit "  Name: "; PStr (name output_tensor)] ;;
  print out [Lit "  Type: "; PType (type output_tensor)] ;;
  print_static_shape out output_tensor ;;
  print out [].

Definition model_information (out : Stdout) (env : Env)
  (model_path : string) : M ModelProto :=
  model <- call (call_onnx_load model_path) (onnx_load env model_path) ;;
  print out [Lit "Producer: "; PStr (producer_name model)] ;;
  print out [Lit "Version: "; PStr (producer_version model)] ;;
  print out [Lit "Model Version: "; PInt (model_version model)] ;;
  print out [Lit "Doc String: "; PStr (doc_string model)] ;;
  print out [] ;;
  ret model.

Definition tensor_information (out : Stdout) (model : ModelProto) : M unit :=
  print out [Lit "=== INPUT INFORMATION ==="] ;;
  for_each (enumerate (input (graph model)))
    (fun '(i, t) => print_input_tensor out i t) ;;
  print out [Lit "=== OUTPUT INFORMATION ==="] ;;
  for_each (enumerate (output (graph model)))
    (fun '(i, t) => print_output_tensor out i t).

Definition print_node_arg (out : Stdout) (meta : NodeArg) : M unit :=
  print out [Lit "  Name: "; PStr (na_name meta)] ;;
  print out [Lit "  Shape: "; PShape (na_shape meta)] ;;
  print out [Lit "  Type: "; PStr (na_type meta)] ;;
  print out [].

Definition session_info (out : Stdout) (env : Env) (model_path : string)
  : M InferenceSession :=
  print out [Lit "=== ONNX RUNTIME SESSION INFO ==="] ;;
  session <- call (call_InferenceSession model_path)
                  (ort_InferenceSession env model_path) ;;
  print out [Lit "Runtime Input Info:"] ;;
  for_each (get_inputs session) (print_node_arg out) ;;
  print out [Lit "Runtime Output Info:"] ;;
  for_each (get_outputs session) (print_node_arg out) ;;
  ret session.

Definition test_inference (out : Stdout) (session : InferenceSession)
  (env : Env) : M (string * list Dim) :=
  print out [Lit "=== TEST INFERENCE ==="] ;;
  i0 <- lift (getitem (get_inputs session) 0) ;;
  let input_name := na_name i0 in
  i0' <- lift (getitem (get_inputs session) 0) ;;
  let input_shape := na_shape i0' in
  let test_shape := make_test_shape input_shape in
  print out [Lit "Test input shape: "; PShape test_shape] ;;
  dummy_input <- random_float32 env 0 test_shape ;;
  res <- session_run session input_name dummy_input ;;
  s <- out0 res out_shape ;;
  print out [Lit "Output shape: "; PStr s] ;;
  t <- out0 res out_dtype ;;
  print out [Lit "Output dtype: "; PStr t] ;;
  mn <- out0 res out_min ;;
  mx <- out0 res out_max ;;
  print out [Lit "Output range: ["; PStr mn; Lit ", "; PStr mx; Lit "]"] ;;
  av <- out0 res out_mean ;;
  print out [Lit "Output mean: "; PStr av] ;;
  sd <- out0 res out_std ;;
  print out [Lit "Output std: "; PStr sd] ;;
  ret (input_name, test_shape).

Definition tensor_format (out : Stdout) (test_shape : list Dim) : M unit :=
  if (List.length test_shape =? 4)%nat then
    d1 <- lift (getitem test_shape 1) ;;
    if dim_eq_int d1 3 then print out [Lit NCHW]
    else
      d3 <- lift (getitem test_shape 3) ;;
      if dim_eq_int d3 3 then print out [Lit NHWC]
      else print out [Lit Unknown]
  else ret tt.

(** The handler of a probe prints too; what it raises leaves the probe. *)
Definition probe (out : Stdout) (session : InferenceSession)
  (input_name : string) (item : string * ndarray) : M unit :=
  let '(norm_name, norm_input) := item in
  try_except
    (norm_result <- session_run session input_name norm_input ;;
     mn <- out0 norm_result out_min ;;
     mx <- out0 norm_result out_max ;;
     sd <- out0 norm_result out_std ;;
     print out [PStr norm_name; Lit ": Output range ["; PStr mn; Lit ", ";
                PStr mx; Lit "], std: "; PStr sd])
    (fun e => print out [PStr norm_name; Lit ": Failed - "; PExc e]).

Definition normalization_estimation (out : Stdout) (env : Env)
  (session : InferenceSession) (input_name : string)
  (test_shape : list Dim) : M unit :=
  print out [Lit (newline ++ "=== NORMALIZATION ESTIMATION ===")] ;;
  if (List.length test_shape =? 4)%nat then
    inputs <- normalized_inputs env test_shape ;;
    for_each inputs (probe out session input_name)
  else ret tt.

Definition through_test_inference (out : Stdout) (env : Env)
  (model_path : string) : M (InferenceSession * string * list Dim) :=
  model <- model_information out env model_path ;;
  tensor_information out model ;;
  session <- session_info out env model_path ;;
  '(input_name, test_shape) <- test_inference out session env ;;
  ret (session, input_name, test_shape).

Definition analyze_body (out : Stdout) (env : Env) (model_path : string)
  : M bool :=
  '(session, input_name, test_shape) <-
     through_test_inference out env model_path ;;
  tensor_format out test_shape ;;
  normalization_estimation out env session input_name test_shape ;;
  ret true.

(** Lines 14-148.  The prints of lines 16 and 19 are before the [try] and
    the print of line 147 is in the handler: what they raise leaves the
    function. *)
Definition analyze_onnx_model (out : Stdout) (env : Env)
  (model_path : string) : M bool :=
  print out [Lit "=== Analyzing ONNX model: "; PStr model_path;
             Lit " ==="] ;;
  if negb (os_path_exists env model_path) then
    print out [Lit "ERROR: Model file not found: "; PStr model_path] ;;
    ret false
  else
    try_except (analyze_body out env model_path)
      (fun e => print out [Lit "ERROR: "; PExc e] ;; ret false).

Definition main_loop_body (out : Stdout) (env : Env) (n : nat)
  (item : nat * string) : M unit :=
  let '(i, model_path) := item in
  print out (progress_banner env i n model_path) ;;
  ok <- analyze_onnx_model out env model_path ;;
  (if ok : bool then print out success_banner
   else print out failure_banner) ;;
  if (i <? n - 1)%nat then
    print out separator ;;
    print out []
  else ret tt.

(** Lines 157-171. *)
Definition main (out : Stdout) (env : Env) (model_paths : list string)
  : M unit :=
  if (List.length model_paths =? 1)%nat then
    p <- lift (getitem model_paths 0) ;;
    analyze_onnx_model out env p ;;
    ret tt
  else
    for_each (enumerate model_paths)
      (main_loop_body out env (List.length model_paths)).

End Io.

(** The console that takes every line. *)
Definition any_line : Stdout := fun _ => None.

(** ** Specification-side definitions *)

(** The element the script derives for one declared dimension, by cases on
    what the model file declares. *)
Definition shape_element (d : Dimension) : Dim :=
  match d with
  | DimValue v => if (v =? 0)%Z then DStr "unknown" else DInt v
  | DimParam p => if truthy_str p then DStr p else DStr "unknown"
  | DimUnset => DStr "unknown"
  end.

(** The element read off the declaration alone: the fixed size when one is
    declared, whatever it is. *)
Definition declared_element (d : Dimension) : Dim :=
  match d with
  | DimValue v => DInt v
  | DimParam p => DStr p
  | DimUnset => DStr "unknown"
  end.

Definition shape_line (dims : list Dimension) : list Event :=
  match dims with
  | [] => []
  | _ => [Printed [Lit "  Shape: "; PShape (map shape_element dims)]]
  end.

(** A runtime dimension is dynamic when it is a name or the sentinel -1. *)
Definition dynamic (d : Dim) : Prop :=
  (exists s, d = DStr s) \/ d = DInt (-1).

(** What becomes of one runtime dimension in the test shape. *)
Definition test_dim (d : Dim) : Dim :=
  if is_dynamic d then DInt 1 else d.

(** The layout label as the specification words it. *)
Definition layout_label (test_shape : list Dim) : option string :=
  match test_shape with
  | [_; c1; _; c3] =>
      Some (if dim_eq_int c1 3
            then "Tensor format: NCHW (batch, channels, height, width)"
            else if dim_eq_int c3 3
            then "Tensor format: NHWC (batch, height, width, channels)"
            else "Tensor format: Unknown")
  | _ => None
  end.


(** What a probe learns from the answer of [session.run]: the formatted
    minimum, maximum and standard deviation of the first output, or the first
    exception met on the way. *)
Definition probe_outcome (r : PyResult (list OutValue))
  : PyResult (string * string * string) :=
  match r with
  | Raise e => Raise e
  | Ok [] => Raise IndexError
  | Ok (o :: _) =>
      match out_min o, out_max o, out_std o with
      | Ok mn, Ok mx, Ok sd => Ok (mn, mx, sd)
      | Raise e, _, _ => Raise e
      | Ok _, Raise e, _ => Raise e
      | Ok _, Ok _, Raise e => Raise e
      end
  end.

(** The line a probe reports. *)
Definition probe_line (norm_name : string) (r : PyResult (list OutValue))
  : list Piece :=
  match probe_outcome r with
  | Ok (mn, mx, sd) =>
      [PStr norm_name; Lit ": Output range ["; PStr mn; Lit ", ";
       PStr mx; Lit "], std: "; PStr sd]
  | Raise e => [PStr norm_name; Lit ": Failed - "; PExc e]
  end.

Definition probe_trace (session : InferenceSession) (input_name : string)
  (norm_name : string) (x : ndarray) : list Event :=
  [Called (call_session_run input_name x);
   Printed (probe_line norm_name (run session input_name x))].

(** The boolean the inspector hands back for a path. *)
Definition outcome (env : Env) (model_path : string) : bool :=
  if os_path_exists env model_path then
    match result (analyze_body env model_path) with
    | Ok _ => true
    | Raise _ => false
    end
  else false.

(** The lines of the batch driver as they reach the console: the progress
    line of the [i]-th of [n] paths (counted from 0), the two verdicts, each
    ending in a line feed of its own, and the separator of 80 signs. *)
Definition progress_line (env : Env) (i n : nat) (model_path : string)
  : Event :=
  Printed [Lit "🔍 Analyzing model "; PInt (Z.of_nat (i + 1)); Lit "/";
           PInt (Z.of_nat n); Lit ": ";
           PStr (os_path_basename env model_path)].

Definition success_line : Event :=
  Printed [Lit (String.append "✅ Analysis completed successfully"
                  (String "010"%char EmptyString))].

Definition failure_line : Event :=
  Printed [Lit (String.append "❌ Analysis failed"
                  (String "010"%char EmptyString))].

Definition verdict_line (ok : bool) : Event :=
  if ok then success_line else failure_line.

Definition separator_line : Event :=
  Printed [Lit "================================================================================"].

(** What the batch driver prints for the [i]-th of [n] paths. *)
Definition block_trace (env : Env) (i n : nat) (model_path : string)
  : list Event :=
  progress_line env i n model_path
    :: trace (analyze_onnx_model env model_path)
    ++ [verdict_line (outcome env model_path)].

(** Blocks in input order, a separator and a blank line between two
    consecutive ones. *)
Fixpoint batch_trace (env : Env) (i n : nat) (model_paths : list string)
  : list Event :=
  match model_paths with
  | [] => []
  | [p] => block_trace env i n p
  | p :: rest =>
      block_trace env i n p ++ [separator_line; Printed []]
        ++ batch_trace env (S i) n rest
  end.

(** Number of events of a trace that are the print of the separator: a
    [print] whose whole argument is the text of 80 signs.  It counts print
    statements run, not lines on the console: a printed value that holds a
    line feed and 80 signs inside a longer text is another event. *)
Fixpoint count_separators (t : list Event) : nat :=
  match t with
  | [] => 0
  | Printed [Lit s] :: t' =>
      (if String.eqb s
            "================================================================================"
       then 1 else 0) + count_separators t'
  | _ :: t' => count_separators t'
  end.

(** The boolean the inspector hands back on a console [out], when it hands
    one back. *)
Definition outcome_on (out : Stdout) (env : Env) (model_path : string)
  : bool :=
  if os_path_exists env model_path then
    match result (Io.analyze_body out env model_path) with
    | Ok _ => true
    | Raise _ => false
    end
  else false.

(** The console takes what a batch over [model_paths] prints outside of a
    [try] or in a handler that is not itself guarded: for each path the
    progress line, the header (line 16), the "not found" line (line 19) and
    the "ERROR:" line of the exception the body raises, if it raises one
    (line 147); the two verdicts, the separator and the empty line. *)
Definition takes_unguarded_lines (out : Stdout) (env : Env)
  (model_paths : list string) : Prop :=
  (forall p, In p model_paths ->
     out [Lit "=== Analyzing ONNX model: "; PStr p; Lit " ==="] = None /\
     out [Lit "ERROR: Model file not found: "; PStr p] = None /\
     (forall e, result (Io.analyze_body out env p) = Raise e ->
                out [Lit "ERROR: "; PExc e] = None) /\
     (forall i n,
        out [Lit "🔍 Analyzing model "; PInt (Z.of_nat (i + 1)); Lit "/";
             PInt (Z.of_nat n); Lit ": "; PStr (os_path_basename env p)]
        = None)) /\
  out [Lit (String.append "✅ Analysis completed successfully"
              (String "010"%char EmptyString))] = None /\
  out [Lit (String.append "❌ Analysis failed"
              (String "010"%char EmptyString))] = None /\
  out [Lit "================================================================================"]
    = None /\
  out [] = None.

(** ** Observations on traces *)

(** The library calls of a trace, in order. *)
Fixpoint calls (t : list Event) : list LibCall :=
  match t with
  | [] => []
  | Called c :: t' => c :: calls t'
  | Printed _ :: t' => calls t'
  end.

(** Every event of the trace of [m] satisfies [P]. *)
Definition keeps (P : Event -> Prop) {A} (m : M A) : Prop :=
  Forall P (trace m).


(** An event that is no print of the separator. *)
Definition no_separator (ev : Event) : Prop := count_separators [ev] = 0.

(** The first line of every analysis (line 16) and the line of the handler
    (line 147). *)
Definition header_line (model_path : string) : Event :=
  Printed [Lit "=== Analyzing ONNX model: "; PStr model_path; Lit " ==="].


(** An element a derived static shape can hold. *)
Definition static_element (d : Dim) : Prop :=
  match d with
  | DInt z => z <> 0%Z
  | DStr s => s <> ""
  | DNone => False
  end.





(** ** A sample environment *)

Module Sample.

Definition tensor (n : string) (dims : list Dimension) : ValueInfoProto :=
  {| name := n;
     type := {| tensor_type :=
                  {| elem_type := 1; shape := {| dim := dims |} |} |} |}.

Definition image_input : ValueInfoProto :=
  tensor "input" [DimParam "batch"; DimValue 3; DimValue 224; DimValue 224].

Definition empty_batch : ValueInfoProto :=
  tensor "boxes" [DimValue 3; DimValue 0].

Definition scalar_output : ValueInfoProto := tensor "score" [].

Definition model : ModelProto :=
  {| producer_name := "pytorch";
     producer_version := "2.1.0";
     model_version := 0;
     doc_string := "";
     graph := {| input := [image_input]; output := [scalar_output] |} |}.

Definition stats : OutValue :=
  {| out_shape := Ok "(1, 512)";
     out_dtype := Ok "float32";
     out_min := Ok "-0.123456";
     out_max := Ok "0.654321";
     out_mean := Ok "0.001000";
     out_std := Ok "0.050000" |}.

Definition invalid_argument : PyExc :=
  {| exc_class := "InvalidArgument"; exc_msg := "Invalid input" |}.


Definition runtime_shape : list Dim :=
  [DStr "batch"; DInt 3; DInt 224; DInt 224].

(** A session whose first inference works; the later ones work when
    [probes_ok] is set and raise otherwise. *)
Definition session (probes_ok : bool) : InferenceSession :=
  {| get_inputs :=
       [ {| na_name := "input"; na_shape := runtime_shape;
            na_type := "tensor(float)" |} ];
     get_outputs :=
       [ {| na_name := "score"; na_shape := [DInt 1; DInt 512];
            na_type := "tensor(float)" |} ];
     run := fun _ a =>
              match a with
              | astype_float32 (random_rand 0 _) => Ok [stats]
              | _ => if probes_ok then Ok [stats]
                     else Raise invalid_argument
              end |}.

(** [posixpath.basename]: what follows the last slash. *)
Fixpoint basename_from (acc p : string) : string :=
  match p with
  | EmptyString => acc
  | String c rest =>
      if Ascii.eqb c "/"%char then basename_from "" rest
      else basename_from (acc ++ String c "") rest
  end.

Definition env (probes_ok : bool) : Env :=
  {| os_path_exists := fun p => String.eqb p "models/face.onnx";
     os_path_basename := basename_from "";
     onnx_load := fun p => Ok model;
     ort_InferenceSession := fun p => Ok (session probes_ok);
     np_random_rand_raises := fun _ => None |}.


Definition test_shape : list Dim := [DInt 1; DInt 3; DInt 224; DInt 224].











(** A console with the ASCII encoding: [print] raises UnicodeEncodeError
    on a line that holds any other character. *)
Definition unicode_error : PyExc :=
  {| exc_class := "UnicodeEncodeError";
     exc_msg := "'ascii' codec can't encode character" |}.

Fixpoint is_ascii (s : string) : bool :=
  match s with
  | EmptyString => true
  | String c rest => (nat_of_ascii c <? 128)%nat && is_ascii rest
  end.

Definition piece_is_ascii (p : Piece) : bool :=
  match p with
  | Lit s => is_ascii s
  | PStr s => is_ascii s
  | PInt _ => true
  | PType _ => true
  | PShape l =>
      forallb (fun d => match d with DStr s => is_ascii s | _ => true end) l
  | PExc e => is_ascii (exc_msg e)
  end.

Definition ascii_stdout : Stdout :=
  fun line =>
    if forallb piece_is_ascii line then None else Some unicode_error.

(** A console on which writing the "Producer:" line fails, and no other. *)
Definition producer_stdout : Stdout :=
  fun line =>
    match line with
    | Lit s :: _ => if String.eqb s "Producer: " then Some unicode_error
                    else None
    | _ => None
    end.

End Sample.

(** ** The monad, equationally *)

Section MonadFacts.

Context {A B C : Type}.

Lemma bind_ret_l (a : A) (f : A -> M B) : bind (ret a) f = f a.
Proof. unfold bind, ret. destruct (f a). reflexivity. Qed.

Lemma bind_ret_r (m : M A) : bind m ret = m.
Proof.
  destruct m as [t [a | e]]; simpl; [rewrite app_nil_r|]; reflexivity.
Qed.

Lemma bind_assoc (m : M A) (f : A -> M B) (g : B -> M C) :
  bind (bind m f) g = bind m (fun a => bind (f a) g).
Proof.
  destruct m as [t [a | e]]; simpl; [|reflexivity].
  destruct (f a) as [t' [b | e]]; simpl; [|reflexivity].
  destruct (g b) as [t'' r]. rewrite app_assoc. reflexivity.
Qed.

Lemma trace_bind (m : M A) (f : A -> M B) :
  trace (bind m f) =
  trace m ++ match result m with
             | Ok a => trace (f a)
             | Raise _ => []
             end.
Proof.
  destruct m as [t [a | e]]; simpl.
  - destruct (f a); reflexivity.
  - rewrite app_nil_r. reflexivity.
Qed.

Lemma result_bind (m : M A) (f : A -> M B) :
  result (bind m f) =
  match result m with
  | Ok a => result (f a)
  | Raise e => Raise e
  end.
Proof.
  destruct m as [t [a | e]]; simpl; [destruct (f a)|]; reflexivity.
Qed.

Lemma result_bind_ok (m : M A) (f : A -> M B) (b : B) :
  result (bind m f) = Ok b ->
  exists a, result m = Ok a /\ result (f a) = Ok b.
Proof.
  rewrite result_bind. destruct (result m) as [a | e]; [eauto | discriminate].
Qed.

End MonadFacts.

Lemma trace_print_bind {B} (line : list Piece) (f : unit -> M B) :
  trace (bind (print line) f) = Printed line :: trace (f tt).
Proof. rewrite trace_bind. reflexivity. Qed.

Lemma trace_lift_bind {A B} (a : A) (f : A -> M B) :
  trace (bind (lift (Ok a)) f) = trace (f a).
Proof. rewrite trace_bind. reflexivity. Qed.

Lemma trace_call_bind {A B} (c : LibCall) (r : PyResult A) (f : A -> M B) :
  trace (bind (call c r) f) =
  Called c :: match r with
              | Ok a => trace (f a)
              | Raise _ => []
              end.
Proof. rewrite trace_bind. reflexivity. Qed.

Lemma M_eta {A} (m : M A) : m = (trace m, result m).
Proof. destruct m; reflexivity. Qed.

Lemma try_except_result {A} (body : M A) (h : PyExc -> M A) :
  result (try_except body h) =
  match result body with
  | Ok a => Ok a
  | Raise e => result (h e)
  end.
Proof.
  destruct body as [t [a | e]]; simpl; [|destruct (h e)]; reflexivity.
Qed.

Lemma try_except_trace {A} (body : M A) (h : PyExc -> M A) :
  trace (try_except body h) =
  trace body ++ match result body with
                | Ok _ => []
                | Raise e => trace (h e)
                end.
Proof.
  destruct body as [t [a | e]]; simpl.
  - rewrite app_nil_r. reflexivity.
  - destruct (h e). reflexivity.
Qed.

(** ** Static shapes (lines 41-50 and 61-70) *)

Lemma static_dim_shape_element (d : Dimension) :
  static_dim d = shape_element d.
Proof.
  destruct d as [v | p |]; unfold static_dim, truthy_int; simpl.
  - destruct (v =? 0)%Z; reflexivity.
  - reflexivity.
  - reflexivity.
Qed.

Lemma fold_left_append {X Y} (f : X -> Y) (l : list X) (acc : list Y) :
  fold_left (fun a x => a ++ [f x]) l acc = acc ++ map f l.
Proof.
  revert acc. induction l as [| x l IH]; intros acc; simpl.
  - rewrite app_nil_r. reflexivity.
  - rewrite IH, <- app_assoc. reflexivity.
Qed.

Lemma static_shape_map (dims : list Dimension) :
  static_shape dims = map shape_element dims.
Proof.
  unfold static_shape. rewrite fold_left_append. simpl.
  apply map_ext. exact static_dim_shape_element.
Qed.

Lemma print_static_shape_spec (t : ValueInfoProto) :
  print_static_shape t = (shape_line (dim (shape (tensor_type (type t)))), Ok tt).
Proof.
  unfold print_static_shape.
  destruct (dim (shape (tensor_type (type t)))) as [| d dims] eqn:E.
  - reflexivity.
  - simpl truthy_list. cbv iota. rewrite static_shape_map. reflexivity.
Qed.

Lemma print_input_tensor_trace (i : nat) (t : ValueInfoProto) :
  print_input_tensor i t =
  ([Printed [Lit "Input "; PInt (Z.of_nat i); Lit ":"];
    Printed [Lit "  Name: "; PStr (name t)];
    Printed [Lit "  Type: "; PType (type t)]]
     ++ shape_line (dim (shape (tensor_type (type t)))) ++ [Printed []],
   Ok tt).
Proof.
  unfold print_input_tensor. rewrite print_static_shape_spec. reflexivity.
Qed.

Lemma print_output_tensor_trace (i : nat) (t : ValueInfoProto) :
  print_output_tensor i t =
  ([Printed [Lit "Output "; PInt (Z.of_nat i); Lit ":"];
    Printed [Lit "  Name: "; PStr (name t)];
    Printed [Lit "  Type: "; PType (type t)]]
     ++ shape_line (dim (shape (tensor_type (type t)))) ++ [Printed []],
   Ok tt).
Proof.
  unfold print_output_tensor. rewrite print_static_shape_spec. reflexivity.
Qed.

(** C1, as amended.  For a declared input or output tensor the derived shape
    has one element per declared dimension, in order: the fixed size when a
    fixed size other than 0 is declared, the symbolic name when a non-empty
    one is declared, and the string "unknown" in every other case, a declared
    fixed size of 0 included.  That list is what the "Shape:" line of the
    tensor shows. *)
Theorem static_shape_elements :
  forall (i : nat) (t : ValueInfoProto),
    let dims := dim (shape (tensor_type (type t))) in
    List.length (static_shape dims) = List.length dims /\
    static_shape dims = map shape_element dims /\
    (forall v, (v <> 0)%Z -> shape_element (DimValue v) = DInt v) /\
    shape_element (DimValue 0) = DStr "unknown" /\
    (forall p, p <> "" -> shape_element (DimParam p) = DStr p) /\
    shape_element DimUnset = DStr "unknown" /\
    trace (print_input_tensor i t) =
      [Printed [Lit "Input "; PInt (Z.of_nat i); Lit ":"];
       Printed [Lit "  Name: "; PStr (name t)];
       Printed [Lit "  Type: "; PType (type t)]]
        ++ shape_line dims ++ [Printed []] /\
    trace (print_output_tensor i t) =
      [Printed [Lit "Output "; PInt (Z.of_nat i); Lit ":"];
       Printed [Lit "  Name: "; PStr (name t)];
       Printed [Lit "  Type: "; PType (type t)]]
        ++ shape_line dims ++ [Printed []].
Proof.
  intros i t dims.
  assert (Hmap : static_shape dims = map shape_element dims)
    by apply static_shape_map.
  repeat split.
  - rewrite Hmap. apply length_map.
  - exact Hmap.
  - intros v Hv. simpl. apply Z.eqb_neq in Hv. rewrite Hv. reflexivity.
  - intros p Hp. destruct p; [congruence | reflexivity].
  - rewrite print_input_tensor_trace. reflexivity.
  - rewrite print_output_tensor_trace. reflexivity.
Qed.

(** C1 as stated fails: a declared fixed size of 0 does not map to 0.  The
    tensor [boxes] declares the dimensions 3 and 0; the script derives
    [3, 'unknown']. *)
Lemma static_shape_zero_counterexample :
  let dims := dim (shape (tensor_type (type Sample.empty_batch))) in
  dims = [DimValue 3; DimValue 0] /\
  static_shape dims = [DInt 3; DStr "unknown"] /\
  static_shape dims <> map declared_element dims /\
  trace (print_input_tensor 0 Sample.empty_batch) =
    [Printed [Lit "Input "; PInt 0; Lit ":"];
     Printed [Lit "  Name: "; PStr "boxes"];
     Printed [Lit "  Type: "; PType (type Sample.empty_batch)];
     Printed [Lit "  Shape: "; PShape [DInt 3; DStr "unknown"]];
     Printed []].
Proof.
  repeat split. simpl. discriminate.
Qed.

(** C10.  A declared tensor with an empty dimension list gets no "Shape:"
    line: the loop round prints its index, its name, its type and a blank
    line, for inputs and outputs alike. *)
Theorem scalar_tensor_no_shape_line :
  forall (i : nat) (t : ValueInfoProto),
    dim (shape (tensor_type (type t))) = [] ->
    print_input_tensor i t =
      ([Printed [Lit "Input "; PInt (Z.of_nat i); Lit ":"];
        Printed [Lit "  Name: "; PStr (name t)];
        Printed [Lit "  Type: "; PType (type t)];
        Printed []], Ok tt) /\
    print_output_tensor i t =
      ([Printed [Lit "Output "; PInt (Z.of_nat i); Lit ":"];
        Printed [Lit "  Name: "; PStr (name t)];
        Printed [Lit "  Type: "; PType (type t)];
        Printed []], Ok tt) /\
    print_static_shape t = ([], Ok tt).
Proof.
  intros i t H.
  rewrite print_input_tensor_trace, print_output_tensor_trace,
    print_static_shape_spec, H.
  repeat split.
Qed.

Lemma scalar_tensor_no_shape_line_witness :
  dim (shape (tensor_type (type Sample.scalar_output))) = [] /\
  print_output_tensor 0 Sample.scalar_output =
    ([Printed [Lit "Output "; PInt 0; Lit ":"];
      Printed [Lit "  Name: "; PStr "score"];
      Printed [Lit "  Type: "; PType (type Sample.scalar_output)];
      Printed []], Ok tt).
Proof.
  split; [reflexivity|].
  apply (scalar_tensor_no_shape_line 0 Sample.scalar_output). reflexivity.
Defined.

(** ** The concrete test shape (lines 95-106) *)

Lemma is_dynamic_iff (d : Dim) : is_dynamic d = true <-> dynamic d.
Proof.
  unfold dynamic. destruct d as [z | s |]; simpl.
  - rewrite Z.eqb_eq. split.
    + intros ->. right. reflexivity.
    + intros [[s Hs] | H]; [discriminate | congruence].
  - split; [intros _; left; eauto | reflexivity].
  - split; [discriminate | intros [[s Hs] | H]; discriminate].
Qed.

Lemma make_test_shape_acc (input_shape acc : list Dim) :
  fold_left
    (fun test_shape d =>
       if is_dynamic d then test_shape ++ [DInt 1] else test_shape ++ [d])
    input_shape acc
  = acc ++ map test_dim input_shape.
Proof.
  revert acc. induction input_shape as [| d l IH]; intros acc; simpl.
  - symmetry. apply app_nil_r.
  - rewrite IH. unfold test_dim at 2.
    destruct (is_dynamic d); rewrite <- app_assoc; reflexivity.
Qed.

Lemma make_test_shape_map (input_shape : list Dim) :
  make_test_shape input_shape = map test_dim input_shape.
Proof. unfold make_test_shape. apply make_test_shape_acc. Qed.

Lemma test_inference_prefix (session : InferenceSession) (env : Env)
  (i0 : NodeArg) (rest : list NodeArg) :
  get_inputs session = i0 :: rest ->
  firstn 3 (trace (test_inference session env)) =
    [Printed [Lit "=== TEST INFERENCE ==="];
     Printed [Lit "Test input shape: ";
              PShape (make_test_shape (na_shape i0))];
     Called (call_random_rand (make_test_shape (na_shape i0)))].
Proof.
  intros H. unfold test_inference, random_float32, np_random_rand.
  rewrite H. unfold getitem. cbn [nth_error].
  rewrite trace_print_bind, !trace_lift_bind, trace_print_bind,
    bind_assoc, trace_call_bind.
  reflexivity.
Qed.

Lemma random_float32_spec (env : Env) (k : nat) (s : list Dim) :
  random_float32 env k s =
  ([Called (call_random_rand s)],
   match np_random_rand_raises env s with
   | Some e => Raise e
   | None =>
       match s with
       | [] => Raise AttributeError
       | _ :: _ => Ok (astype_float32 (random_rand k s))
       end
   end).
Proof.
  unfold random_float32, np_random_rand.
  destruct (np_random_rand_raises env s); [reflexivity|].
  destruct s; reflexivity.
Qed.

Lemma random_float32_ok (env : Env) (k : nat) (s : list Dim) (a : ndarray) :
  result (random_float32 env k s) = Ok a ->
  np_random_rand_raises env s = None /\ s <> [] /\
  a = astype_float32 (random_rand k s).
Proof.
  rewrite random_float32_spec. cbn [result snd].
  destruct (np_random_rand_raises env s); [discriminate|].
  destruct s; [discriminate|].
  intros H. injection H as <-. repeat split. discriminate.
Qed.

Lemma test_inference_result (session : InferenceSession) (env : Env)
  (input_name : string) (test_shape : list Dim) :
  result (test_inference session env) = Ok (input_name, test_shape) ->
  exists i0 rest,
    get_inputs session = i0 :: rest /\
    input_name = na_name i0 /\
    test_shape = make_test_shape (na_shape i0) /\
    np_random_rand_raises env test_shape = None.
Proof.
  unfold test_inference. intros H.
  apply result_bind_ok in H as [_ [_ H]].
  apply result_bind_ok in H as [i0 [H0 H]].
  apply result_bind_ok in H as [i0' [H0' H]].
  apply result_bind_ok in H as [_ [_ H]].
  apply result_bind_ok in H as [a [Ha H]].
  repeat (apply result_bind_ok in H as [? [_ H]]).
  unfold getitem, lift, result in H0, H0'.
  destruct (get_inputs session) as [| j rest]; simpl in *; [discriminate|].
  injection H0 as <-. injection H0' as <-.
  injection H as <- <-.
  exists j, rest. repeat split.
  apply random_float32_ok in Ha. apply Ha.
Qed.


Lemma test_dim_dynamic (d : Dim) : dynamic d -> test_dim d = DInt 1.
Proof.
  intros H. apply is_dynamic_iff in H. unfold test_dim. rewrite H.
  reflexivity.
Qed.

Lemma test_dim_fixed (d : Dim) : ~ dynamic d -> test_dim d = d.
Proof.
  intros H. unfold test_dim. destruct (is_dynamic d) eqn:E; [|reflexivity].
  apply is_dynamic_iff in E. contradiction.
Qed.

(** C2.  The test shape is built from the shape of the first runtime input:
    it has the same length, a position holding a symbolic name or -1 holds 1,
    and every other position holds what the runtime shape holds there.  It is
    the shape the script prints and draws the random tensor for. *)
Theorem test_shape_from_runtime_shape :
  forall (session : InferenceSession) (env : Env)
         (i0 : NodeArg) (rest : list NodeArg),
    get_inputs session = i0 :: rest ->
    let input_shape := na_shape i0 in
    let test_shape := make_test_shape input_shape in
    List.length test_shape = List.length input_shape /\
    (forall i d, nth_error input_shape i = Some d ->
       (dynamic d -> nth_error test_shape i = Some (DInt 1)) /\
       (~ dynamic d -> nth_error test_shape i = Some d)) /\
    firstn 3 (trace (test_inference session env)) =
      [Printed [Lit "=== TEST INFERENCE ==="];
       Printed [Lit "Test input shape: "; PShape test_shape];
       Called (call_random_rand test_shape)] /\
    (forall input_name s,
       result (test_inference session env) = Ok (input_name, s) ->
       s = test_shape).
Proof.
  intros session env i0 rest H input_shape test_shape.
  subst test_shape. rewrite make_test_shape_map.
  split; [apply length_map|]. split; [|split].
  - intros i d Hd.
    rewrite nth_error_map, Hd. simpl.
    split; intros Hdyn; f_equal.
    + apply test_dim_dynamic, Hdyn.
    + apply test_dim_fixed, Hdyn.
  - rewrite <- make_test_shape_map. apply (test_inference_prefix _ _ _ rest H).
  - intros input_name s Hs.
    apply test_inference_result in Hs as (j & rest' & Hj & _ & -> & _).
    rewrite H in Hj. injection Hj as <- _.
    apply make_test_shape_map.
Qed.

Lemma test_shape_from_runtime_shape_witness :
  get_inputs (Sample.session true) =
    {| na_name := "input"; na_shape := Sample.runtime_shape;
       na_type := "tensor(float)" |} :: [] /\
  make_test_shape Sample.runtime_shape = [DInt 1; DInt 3; DInt 224; DInt 224] /\
  make_test_shape [DInt (-1); DInt 3; DInt 224; DInt 224]
    = [DInt 1; DInt 3; DInt 224; DInt 224] /\
  List.length (make_test_shape Sample.runtime_shape)
    = List.length Sample.runtime_shape.
Proof.
  split; [reflexivity|]. split; [reflexivity|]. split; [reflexivity|].
  exact (proj1 (test_shape_from_runtime_shape (Sample.session true)
                  (Sample.env true) _ [] eq_refl)).
Defined.

(** ** The layout heuristic (lines 119-125) *)

Lemma dim_eq_int_iff (d : Dim) (n : Z) : dim_eq_int d n = true <-> d = DInt n.
Proof.
  destruct d as [z | s |]; simpl.
  - rewrite Z.eqb_eq. split; congruence.
  - split; discriminate.
  - split; discriminate.
Qed.

Lemma tensor_format_label (test_shape : list Dim) :
  tensor_format test_shape =
  match layout_label test_shape with
  | Some l => print [Lit l]
  | None => ret tt
  end.
Proof.
  destruct test_shape as [| a [| b [| c [| d [| e l]]]]]; try reflexivity.
  unfold tensor_format, layout_label. simpl.
  destruct (dim_eq_int b 3); [reflexivity|].
  destruct (dim_eq_int d 3); reflexivity.
Qed.

Lemma layout_label_length (test_shape : list Dim) :
  List.length test_shape = 4 <-> exists l, layout_label test_shape = Some l.
Proof.
  destruct test_shape as [| a [| b [| c [| d [| e l]]]]]; simpl;
    split; try discriminate; try (intros [l' Hl]; discriminate); eauto.
Qed.

(** C3.  The layout heuristic prints a label exactly when the test shape has
    4 dimensions.  For a shape [a, b, c, d] the label is NCHW when [b] is 3,
    NHWC when [b] is not 3 and [d] is 3, and Unknown when neither is 3; for
    any other length nothing is printed. *)
Theorem tensor_format_four_dimensions :
  forall (test_shape : list Dim),
    (List.length test_shape = 4 <->
     exists l, trace (tensor_format test_shape) = [Printed [Lit l]]) /\
    (List.length test_shape <> 4 -> tensor_format test_shape = ([], Ok tt)) /\
    (forall a b c d, test_shape = [a; b; c; d] ->
       (b = DInt 3 ->
        tensor_format test_shape =
          ([Printed
              [Lit "Tensor format: NCHW (batch, channels, height, width)"]],
           Ok tt)) /\
       (b <> DInt 3 -> d = DInt 3 ->
        tensor_format test_shape =
          ([Printed
              [Lit "Tensor format: NHWC (batch, height, width, channels)"]],
           Ok tt)) /\
       (b <> DInt 3 -> d <> DInt 3 ->
        tensor_format test_shape =
          ([Printed [Lit "Tensor format: Unknown"]], Ok tt))).
Proof.
  intros test_shape. rewrite tensor_format_label. repeat split.
  - intros H. apply layout_label_length in H as [l Hl].
    rewrite Hl. exists l. reflexivity.
  - intros [l Hl]. apply layout_label_length.
    destruct (layout_label test_shape) as [l' |]; [eauto | discriminate].
  - intros H. destruct (layout_label test_shape) as [l |] eqn:E;
      [|reflexivity].
    exfalso. apply H. apply layout_label_length. eauto.
  - intros ->. subst. reflexivity.
  - intros Hb ->. subst. simpl.
    destruct (dim_eq_int b 3) eqn:E; [|reflexivity].
    apply dim_eq_int_iff in E. contradiction.
  - intros Hb Hd. subst. simpl.
    destruct (dim_eq_int b 3) eqn:E.
    { apply dim_eq_int_iff in E. contradiction. }
    destruct (dim_eq_int d 3) eqn:E'; [|reflexivity].
    apply dim_eq_int_iff in E'. contradiction.
Qed.

Lemma tensor_format_four_dimensions_witness :
  tensor_format [DInt 1; DInt 3; DInt 224; DInt 224] =
    ([Printed [Lit "Tensor format: NCHW (batch, channels, height, width)"]],
     Ok tt) /\
  tensor_format [DInt 1; DInt 224; DInt 224; DInt 3] =
    ([Printed [Lit "Tensor format: NHWC (batch, height, width, channels)"]],
     Ok tt) /\
  tensor_format [DInt 1; DInt 1; DInt 28; DInt 28] =
    ([Printed [Lit "Tensor format: Unknown"]], Ok tt) /\
  tensor_format [DInt 1; DInt 1000] = ([], Ok tt).
Proof.
  split; [|split; [|split]].
  - destruct (tensor_format_four_dimensions
                [DInt 1; DInt 3; DInt 224; DInt 224]) as (_ & _ & H).
    apply (H _ _ _ _ eq_refl). reflexivity.
  - destruct (tensor_format_four_dimensions
                [DInt 1; DInt 224; DInt 224; DInt 3]) as (_ & _ & H).
    apply (H _ _ _ _ eq_refl); [discriminate | reflexivity].
  - destruct (tensor_format_four_dimensions
                [DInt 1; DInt 1; DInt 28; DInt 28]) as (_ & _ & H).
    apply (H _ _ _ _ eq_refl); discriminate.
  - destruct (tensor_format_four_dimensions [DInt 1; DInt 1000])
      as (_ & H & _).
    apply H. discriminate.
Defined.

(** C8.  With 3 at index 1 and at index 3 of a 4-dimensional test shape the
    label is NCHW: the first test wins and the NHWC line is not printed. *)
Theorem tensor_format_channel_first_wins :
  forall (a c : Dim),
    tensor_format [a; DInt 3; c; DInt 3] =
      ([Printed
          [Lit "Tensor format: NCHW (batch, channels, height, width)"]],
       Ok tt) /\
    ~ In (Printed
            [Lit "Tensor format: NHWC (batch, height, width, channels)"])
         (trace (tensor_format [a; DInt 3; c; DInt 3])) /\
    tensor_format [DInt 1; DInt 3; DInt 224; DInt 3] =
      ([Printed
          [Lit "Tensor format: NCHW (batch, channels, height, width)"]],
       Ok tt).
Proof.
  intros a c. repeat split.
  simpl. intros [H | []]. discriminate H.
Qed.

(** ** Results of the blocks of the analysis *)








(** ** Normalization probes (lines 128-142) *)





(** ** The inspector never raises (lines 14-148) *)

Lemma analyze_body_true (env : Env) (model_path : string) (v : bool) :
  result (analyze_body env model_path) = Ok v -> v = true.
Proof.
  unfold analyze_body. intros H.
  apply result_bind_ok in H as [[[session input_name] test_shape] [_ H]].
  apply result_bind_ok in H as [_ [_ H]].
  apply result_bind_ok in H as [_ [_ H]].
  injection H as <-. reflexivity.
Qed.

Lemma analyze_onnx_model_result (env : Env) (model_path : string) :
  result (analyze_onnx_model env model_path) = Ok (outcome env model_path).
Proof.
  unfold analyze_onnx_model, outcome.
  rewrite result_bind. simpl result at 1. cbv iota.
  destruct (os_path_exists env model_path); simpl negb; cbv iota.
  - rewrite try_except_result.
    destruct (result (analyze_body env model_path)) as [v | e] eqn:E.
    + f_equal. apply (analyze_body_true _ _ _ E).
    + reflexivity.
  - reflexivity.
Qed.









Lemma static_shape_elements_witness :
  static_shape [DimParam "batch"; DimValue 3; DimValue 224; DimValue 224]
    = [DStr "batch"; DInt 3; DInt 224; DInt 224] /\
  shape_element (DimValue 224) = DInt 224.
Proof.
  destruct (static_shape_elements 0 Sample.image_input)
    as (_ & H & Hv & _).
  split; [exact H | apply Hv; discriminate].
Defined.

(** ** The batch driver (lines 157-171) *)

Lemma analyze_onnx_model_eta (env : Env) (model_path : string) :
  analyze_onnx_model env model_path =
  (trace (analyze_onnx_model env model_path), Ok (outcome env model_path)).
Proof.
  rewrite <- analyze_onnx_model_result. apply M_eta.
Qed.

Lemma main_loop_body_spec (env : Env) (i n : nat) (model_path : string) :
  main_loop_body env n (i, model_path) =
  (block_trace env i n model_path
     ++ (if (i <? n - 1)%nat then [separator_line; Printed []] else []),
   Ok tt).
Proof.
  unfold main_loop_body, block_trace.
  pose proof (analyze_onnx_model_result env model_path) as Hr.
  destruct (analyze_onnx_model env model_path) as [t r].
  cbn [result snd] in Hr. subst r. cbn [trace fst].
  destruct (outcome env model_path), (i <? n - 1)%nat;
    cbn [bind print ret app]; rewrite <- ?app_assoc, ?app_nil_r;
    reflexivity.
Qed.

Lemma main_loop_spec (env : Env) (n : nat) (model_paths : list string) :
  forall i,
    i + List.length model_paths = n ->
    for_each (enumerate_from i model_paths) (main_loop_body env n) =
    (batch_trace env i n model_paths, Ok tt).
Proof.
  induction model_paths as [| p rest IH]; intros i Hn.
  - reflexivity.
  - cbn [enumerate_from for_each].
    rewrite main_loop_body_spec, IH by (simpl in Hn; lia).
    destruct rest as [| q rest].
    + assert (E : (i <? n - 1)%nat = false)
        by (apply Nat.ltb_ge; simpl in Hn; lia).
      rewrite E. cbn [bind batch_trace]. rewrite !app_nil_r. reflexivity.
    + assert (E : (i <? n - 1)%nat = true)
        by (apply Nat.ltb_lt; simpl in Hn; lia).
      rewrite E. cbn [bind]. rewrite <- app_assoc. reflexivity.
Qed.



(** ** Invariants of traces *)

Section Keeps.

Variable P : Event -> Prop.

Lemma keeps_ret {A} (a : A) : keeps P (ret a).
Proof. constructor. Qed.

Lemma keeps_lift {A} (r : PyResult A) : keeps P (lift r).
Proof. constructor. Qed.

Lemma keeps_print (line : list Piece) :
  P (Printed line) -> keeps P (print line).
Proof. intros H. repeat constructor. exact H. Qed.

Lemma keeps_call {A} (c : LibCall) (r : PyResult A) :
  P (Called c) -> keeps P (call c r).
Proof. intros H. repeat constructor. exact H. Qed.

Lemma keeps_bind {A B} (m : M A) (f : A -> M B) :
  keeps P m -> (forall a, keeps P (f a)) -> keeps P (bind m f).
Proof.
  unfold keeps. intros Hm Hf. rewrite trace_bind.
  apply Forall_app. split; [exact Hm|].
  destruct (result m); [apply Hf | constructor].
Qed.

Lemma keeps_try_except {A} (body : M A) (h : PyExc -> M A) :
  keeps P body -> (forall e, keeps P (h e)) -> keeps P (try_except body h).
Proof.
  unfold keeps. intros Hb Hh. rewrite try_except_trace.
  apply Forall_app. split; [exact Hb|].
  destruct (result body); [constructor | apply Hh].
Qed.

Lemma keeps_for_each {X} (l : list X) (body : X -> M unit) :
  (forall x, keeps P (body x)) -> keeps P (for_each l body).
Proof.
  intros H. induction l as [| x l IH]; simpl for_each.
  - apply keeps_ret.
  - apply keeps_bind; [apply H | intros _; exact IH].
Qed.

Lemma keeps_if {A} (b : bool) (m1 m2 : M A) :
  keeps P m1 -> keeps P m2 -> keeps P (if b then m1 else m2).
Proof. destruct b; auto. Qed.

End Keeps.

(** Breaks a block into its statements and leaves the conditions on the
    single events. *)
Ltac keeps_step :=
  first
    [ apply keeps_ret
    | apply keeps_lift
    | apply keeps_print
    | apply keeps_call
    | apply keeps_for_each; intros
    | apply keeps_try_except; [| intros]
    | apply keeps_bind; [| intros]
    | apply keeps_if ].




Lemma count_separators_cons (ev : Event) (t : list Event) :
  count_separators (ev :: t) = count_separators [ev] + count_separators t.
Proof.
  destruct ev as [[| [s | | | | |] [| q line]] | c]; simpl; lia.
Qed.

Lemma count_separators_app (t u : list Event) :
  count_separators (t ++ u) = count_separators t + count_separators u.
Proof.
  induction t as [| ev t IH]; [reflexivity|].
  rewrite <- app_comm_cons, count_separators_cons, IH,
    (count_separators_cons ev t).
  lia.
Qed.

Lemma count_separators_none (t : list Event) :
  Forall no_separator t -> count_separators t = 0.
Proof.
  induction 1 as [| ev t H _ IH]; [reflexivity|].
  rewrite count_separators_cons, IH. unfold no_separator in H.
  rewrite H. reflexivity.
Qed.

(** ** Traces of the blocks *)












Lemma probe_trace_calls (session : InferenceSession)
  (input_name norm_name : string) (x : ndarray) :
  calls (probe_trace session input_name norm_name x) =
  [call_session_run input_name x].
Proof. reflexivity. Qed.








(** ** Where an analysis stops *)











(** ** The calls of a successful analysis *)






(** ** Shapes *)

(** X8.  A derived static shape never holds the integer 0, an empty string
    or None: every element is a non-zero size or a non-empty string (a name
    or "unknown"). *)
Theorem static_shape_no_zero :
  forall (dims : list Dimension),
    Forall static_element (static_shape dims) /\
    ~ In (DInt 0) (static_shape dims) /\
    ~ In (DStr "") (static_shape dims) /\
    ~ In DNone (static_shape dims).
Proof.
  intros dims.
  assert (H : Forall static_element (static_shape dims)).
  { rewrite static_shape_map. apply Forall_map, Forall_forall.
    intros d _. destruct d as [v | p |]; simpl.
    - destruct (v =? 0)%Z eqn:E; simpl; [discriminate|].
      apply Z.eqb_neq. exact E.
    - destruct p; simpl; discriminate.
    - discriminate. }
  split; [exact H|].
  rewrite Forall_forall in H.
  repeat split; intros Hin; apply H in Hin; simpl in Hin; auto.
Qed.

Lemma make_test_shape_fixed (input_shape : list Dim) :
  Forall (fun d => ~ dynamic d) input_shape ->
  make_test_shape input_shape = input_shape.
Proof.
  intros H. rewrite make_test_shape_map.
  induction H as [| d l Hd _ IH]; simpl; [reflexivity|].
  rewrite IH, (test_dim_fixed _ Hd). reflexivity.
Qed.

Lemma make_test_shape_concrete (input_shape : list Dim) :
  Forall (fun d => ~ dynamic d) (make_test_shape input_shape).
Proof.
  rewrite make_test_shape_map. apply Forall_map, Forall_forall.
  intros d _. unfold test_dim.
  destruct (is_dynamic d) eqn:E.
  - intros [[s Hs] | H]; discriminate.
  - intros H. apply is_dynamic_iff in H. congruence.
Qed.

(** X9.  No element of a test shape is a name or -1; a runtime shape without
    such elements is its own test shape; and deriving the test shape of a
    test shape changes nothing. *)
Theorem test_shape_concrete :
  forall (input_shape : list Dim),
    Forall (fun d => ~ dynamic d) (make_test_shape input_shape) /\
    (Forall (fun d => ~ dynamic d) input_shape ->
     make_test_shape input_shape = input_shape) /\
    make_test_shape (make_test_shape input_shape)
      = make_test_shape input_shape.
Proof.
  intros input_shape.
  split; [apply make_test_shape_concrete|].
  split; [apply make_test_shape_fixed|].
  apply make_test_shape_fixed, make_test_shape_concrete.
Qed.

Lemma test_shape_concrete_witness :
  Forall (fun d => ~ dynamic d) Sample.test_shape /\
  make_test_shape Sample.test_shape = Sample.test_shape.
Proof.
  assert (H : Forall (fun d => ~ dynamic d) Sample.test_shape).
  { repeat constructor; intros [[s Hs] | H]; discriminate. }
  split; [exact H|].
  exact (proj1 (proj2 (test_shape_concrete Sample.test_shape)) H).
Defined.

(** ** The whole report *)

Ltac keeps_all :=
  repeat first
    [ progress cbv beta
    | keeps_step
    | match goal with
      | |- keeps _ (match ?x with _ => _ end) => destruct x
      end ].

Lemma analyze_onnx_model_no_separator (env : Env) (model_path : string) :
  keeps no_separator (analyze_onnx_model env model_path).
Proof.
  unfold analyze_onnx_model, analyze_body, through_test_inference,
    model_information, tensor_information, session_info, test_inference,
    tensor_format, normalization_estimation, normalized_inputs,
    np_random_rand, session_run, out0, print_input_tensor,
    print_output_tensor, print_static_shape, print_node_arg, probe.
  keeps_all; reflexivity.
Qed.

Lemma analyze_onnx_model_header (env : Env) (model_path : string) :
  exists t,
    trace (analyze_onnx_model env model_path) = header_line model_path :: t.
Proof.
  unfold analyze_onnx_model. rewrite trace_print_bind. eauto.
Qed.

Lemma main_trace (env : Env) (model_paths : list string) :
  main env model_paths =
  (match model_paths with
   | [p] => trace (analyze_onnx_model env p)
   | _ => batch_trace env 0 (List.length model_paths) model_paths
   end, Ok tt).
Proof.
  destruct model_paths as [| p [| q rest]].
  - reflexivity.
  - unfold main. cbn [List.length Nat.eqb getitem nth_error].
    cbn [bind lift app].
    pose proof (analyze_onnx_model_result env p) as Hr.
    destruct (analyze_onnx_model env p) as [t r].
    cbn [result snd] in Hr. subst r.
    cbn [bind lift ret app trace fst]. rewrite app_nil_r. reflexivity.
  - unfold main. cbn [List.length Nat.eqb].
    apply main_loop_spec. reflexivity.
Qed.

Lemma block_trace_no_separator (env : Env) (i n : nat) (model_path : string) :
  count_separators (block_trace env i n model_path) = 0.
Proof.
  unfold block_trace.
  rewrite count_separators_cons, count_separators_app,
    (count_separators_none _ (analyze_onnx_model_no_separator env model_path)).
  destruct (outcome env model_path); reflexivity.
Qed.

Lemma batch_trace_separators (env : Env) (n : nat)
  (model_paths : list string) :
  forall i,
    count_separators (batch_trace env i n model_paths)
    = List.length model_paths - 1.
Proof.
  induction model_paths as [| p rest IH]; intros i; [reflexivity|].
  destruct rest as [| q rest].
  - apply block_trace_no_separator.
  - change (batch_trace env i n (p :: q :: rest))
      with (block_trace env i n p ++ [Printed separator; Printed []]
              ++ batch_trace env (S i) n (q :: rest)).
    rewrite !count_separators_app, block_trace_no_separator, IH.
    simpl. lia.
Qed.

(** X11.  The trace of the batch driver holds exactly one print of the
    separator (a [print] whose whole text is 80 times "=") less than there
    are paths, and none for a single path; no print statement of an
    analysis prints that bare text, so the prints counted are the ones
    between two models.  The count is of print statements run: a value
    printed inside a longer line is not looked into. *)
Theorem main_separator_count :
  forall (env : Env) (model_paths : list string),
    count_separators (trace (main env model_paths))
      = List.length model_paths - 1 /\
    (forall p, count_separators (trace (analyze_onnx_model env p)) = 0).
Proof.
  intros env model_paths. split.
  - rewrite main_trace. cbn [trace fst].
    destruct model_paths as [| p [| q rest]].
    + reflexivity.
    + apply count_separators_none, analyze_onnx_model_no_separator.
    + apply batch_trace_separators.
  - intros p. apply count_separators_none, analyze_onnx_model_no_separator.
Qed.

(** ** The listings *)



Lemma enumerate_from_snd {X} (l : list X) (i : nat) :
  map snd (enumerate_from i l) = l.
Proof.
  revert i. induction l as [| x l IH]; intros i; simpl; [|rewrite IH];
    reflexivity.
Qed.




(** ** The inspector on a console that can refuse a line *)

Lemma Io_print_taken (out : Stdout) (line : list Piece) :
  out line = None -> Io.print out line = ([Printed line], Ok tt).
Proof. intros H. unfold Io.print. rewrite H. reflexivity. Qed.

Lemma Io_print_refused (out : Stdout) (line : list Piece) (e : PyExc) :
  out line = Some e -> Io.print out line = ([], Raise e).
Proof. intros H. unfold Io.print. rewrite H. reflexivity. Qed.

(** On the console that takes every line the two embeddings are the same
    program. *)
Lemma Io_any_line (env : Env) (model_path : string)
  (model_paths : list string) :
  Io.analyze_onnx_model any_line env model_path
    = analyze_onnx_model env model_path /\
  Io.main any_line env model_paths = main env model_paths.
Proof. split; reflexivity. Qed.

Lemma Io_analyze_body_true (out : Stdout) (env : Env) (model_path : string)
  (v : bool) :
  result (Io.analyze_body out env model_path) = Ok v -> v = true.
Proof.
  unfold Io.analyze_body. intros H.
  apply result_bind_ok in H as [[[session input_name] test_shape] [_ H]].
  apply result_bind_ok in H as [_ [_ H]].
  apply result_bind_ok in H as [_ [_ H]].
  injection H as <-. reflexivity.
Qed.

(** When the body of the [try] runs to its end, the model was loaded, the
    session constructed, the tensor drawn over a shape that is not empty
    and the first inference returned. *)
Lemma Io_analyze_body_ok (out : Stdout) (env : Env) (model_path : string)
  (v : bool) :
  result (Io.analyze_body out env model_path) = Ok v ->
  exists model session i0 rest res,
    onnx_load env model_path = Ok model /\
    ort_InferenceSession env model_path = Ok session /\
    get_inputs session = i0 :: rest /\
    np_random_rand_raises env (make_test_shape (na_shape i0)) = None /\
    make_test_shape (na_shape i0) <> [] /\
    run session (na_name i0)
        (astype_float32 (random_rand 0 (make_test_shape (na_shape i0))))
      = Ok res.
Proof.
  unfold Io.analyze_body. intros H.
  apply result_bind_ok in H as [[[session input_name] test_shape] [H _]].
  unfold Io.through_test_inference in H.
  apply result_bind_ok in H as [model [Hm H]].
  apply result_bind_ok in H as [_ [_ H]].
  apply result_bind_ok in H as [s [Hs H]].
  apply result_bind_ok in H as [[n ts] [Ht _]].
  unfold Io.model_information in Hm.
  apply result_bind_ok in Hm as [model' [Hm _]].
  unfold Io.session_info in Hs.
  apply result_bind_ok in Hs as [_ [_ Hs]].
  apply result_bind_ok in Hs as [s' [Hs' Hs]].
  repeat (apply result_bind_ok in Hs as [? [_ Hs]]).
  injection Hs as <-.
  unfold Io.test_inference in Ht.
  apply result_bind_ok in Ht as [_ [_ Ht]].
  apply result_bind_ok in Ht as [i0 [H0 Ht]].
  apply result_bind_ok in Ht as [i0' [H0' Ht]].
  apply result_bind_ok in Ht as [_ [_ Ht]].
  apply result_bind_ok in Ht as [a [Ha Ht]].
  apply result_bind_ok in Ht as [res [Hres _]].
  unfold getitem, lift, result in H0, H0'.
  destruct (get_inputs s') as [| j rest] eqn:Hin; simpl in H0, H0';
    [discriminate|].
  injection H0 as <-. injection H0' as <-.
  apply random_float32_ok in Ha as (Hrand & Hne & ->).
  exists model', s', j, rest, res.
  repeat split; assumption.
Qed.

Lemma Io_analyze_onnx_model_result (out : Stdout) (env : Env)
  (model_path : string) :
  out [Lit "=== Analyzing ONNX model: "; PStr model_path; Lit " ==="]
    = None ->
  out [Lit "ERROR: Model file not found: "; PStr model_path] = None ->
  (forall e, result (Io.analyze_body out env model_path) = Raise e ->
             out [Lit "ERROR: "; PExc e] = None) ->
  result (Io.analyze_onnx_model out env model_path)
    = Ok (outcome_on out env model_path).
Proof.
  intros Hhead Hmiss Herr. unfold Io.analyze_onnx_model, outcome_on.
  rewrite (Io_print_taken _ _ Hhead), result_bind.
  cbn [result snd].
  destruct (os_path_exists env model_path); cbn [negb].
  - rewrite try_except_result.
    destruct (result (Io.analyze_body out env model_path)) as [v | e] eqn:E.
    + f_equal. apply (Io_analyze_body_true _ _ _ _ E).
    + rewrite (Io_print_taken _ _ (Herr e eq_refl)). reflexivity.
  - rewrite (Io_print_taken _ _ Hmiss). reflexivity.
Qed.

Lemma Io_analyze_onnx_model_header (out : Stdout) (env : Env)
  (model_path : string) :
  out [Lit "=== Analyzing ONNX model: "; PStr model_path; Lit " ==="]
    = None ->
  exists t,
    trace (Io.analyze_onnx_model out env model_path)
      = header_line model_path :: t.
Proof.
  intros Hhead. unfold Io.analyze_onnx_model.
  rewrite (Io_print_taken _ _ Hhead), trace_bind. cbn [trace fst app].
  eauto.
Qed.

(** C4, as amended.  On a console that takes the header (line 16), the
    "not found" line (line 19) and the "ERROR:" line of the exception the
    body raises (line 147), the inspector raises nothing and returns a
    boolean: True exactly when the file exists and the body of the [try]
    runs to its end, False otherwise.  A model that does not load, a session
    that cannot be constructed and a first inference that fails each give
    False, and so does a [print] inside the body that raises.  The three
    prints named stand outside the [try]: what they raise is not caught. *)
Theorem analyze_onnx_model_catches_body_failures :
  forall (out : Stdout) (env : Env) (model_path : string),
    out [Lit "=== Analyzing ONNX model: "; PStr model_path; Lit " ==="]
      = None ->
    out [Lit "ERROR: Model file not found: "; PStr model_path] = None ->
    (forall e, result (Io.analyze_body out env model_path) = Raise e ->
               out [Lit "ERROR: "; PExc e] = None) ->
    result (Io.analyze_onnx_model out env model_path)
      = Ok (outcome_on out env model_path) /\
    (forall e, result (Io.analyze_onnx_model out env model_path) <> Raise e) /\
    (outcome_on out env model_path = true <->
     os_path_exists env model_path = true /\
     exists v, result (Io.analyze_body out env model_path) = Ok v) /\
    (forall e, onnx_load env model_path = Raise e ->
               result (Io.analyze_onnx_model out env model_path) = Ok false) /\
    (forall e, ort_InferenceSession env model_path = Raise e ->
               result (Io.analyze_onnx_model out env model_path) = Ok false) /\
    (forall session i0 rest e,
        ort_InferenceSession env model_path = Ok session ->
        get_inputs session = i0 :: rest ->
        run session (na_name i0)
            (astype_float32 (random_rand 0 (make_test_shape (na_shape i0))))
          = Raise e ->
        result (Io.analyze_onnx_model out env model_path) = Ok false) /\
    (forall e,
        result (Io.analyze_body out env model_path) = Raise e ->
        result (Io.analyze_onnx_model out env model_path) = Ok false).
Proof.
  intros out env model_path Hhead Hmiss Herr.
  rewrite (Io_analyze_onnx_model_result _ _ _ Hhead Hmiss Herr).
  assert (Hfail : forall e,
             result (Io.analyze_body out env model_path) = Raise e ->
             outcome_on out env model_path = false).
  { intros e H. unfold outcome_on. rewrite H.
    destruct (os_path_exists env model_path); reflexivity. }
  assert (Hnot : (forall v,
             result (Io.analyze_body out env model_path) <> Ok v) ->
             outcome_on out env model_path = false).
  { intros H. unfold outcome_on.
    destruct (os_path_exists env model_path); [|reflexivity].
    destruct (result (Io.analyze_body out env model_path)) as [v | e];
      [exfalso; apply (H v); reflexivity | reflexivity]. }
  split; [reflexivity|]. split; [discriminate|].
  split; [|split; [|split; [|split]]].
  - unfold outcome_on. destruct (os_path_exists env model_path).
    + destruct (result (Io.analyze_body out env model_path)) as [v | e].
      * split; [eauto | reflexivity].
      * split; [discriminate | intros [_ [v Hv]]; discriminate].
    + split; [discriminate | intros [H _]; discriminate].
  - intros e H. f_equal. apply Hnot. intros v Hv.
    apply Io_analyze_body_ok in Hv
      as (model & s & i0 & rest & res & Hm & _).
    congruence.
  - intros e H. f_equal. apply Hnot. intros v Hv.
    apply Io_analyze_body_ok in Hv
      as (model & s & i0 & rest & res & _ & Hs & _).
    congruence.
  - intros session i0 rest e Hs Hin Hrun. f_equal. apply Hnot.
    intros v Hv.
    apply Io_analyze_body_ok in Hv
      as (model & s & j & rest' & res & _ & Hs' & Hin' & _ & _ & Hres).
    rewrite Hs in Hs'. injection Hs' as <-.
    rewrite Hin in Hin'. injection Hin' as <- <-.
    congruence.
  - intros e H. f_equal. apply (Hfail e H).
Qed.

(** C4 as stated fails: the header is printed before the [try].  On a
    console with the ASCII encoding a path that holds another character
    makes the print of line 16 raise; the exception leaves the inspector and
    no boolean is returned. *)
Lemma analyze_onnx_model_header_raises_counterexample :
  let path := "models/visage-é.onnx" in
  Sample.ascii_stdout
    [Lit "=== Analyzing ONNX model: "; PStr path; Lit " ==="]
    = Some Sample.unicode_error /\
  Io.analyze_onnx_model Sample.ascii_stdout (Sample.env true) path
    = ([], Raise Sample.unicode_error) /\
  (forall b,
      result (Io.analyze_onnx_model Sample.ascii_stdout (Sample.env true)
                path) <> Ok b).
Proof.
  intros path. split; [reflexivity|]. split; [reflexivity|].
  intros b. discriminate.
Qed.

Lemma analyze_onnx_model_catches_body_failures_witness :
  let out := Sample.producer_stdout in
  let env := Sample.env true in
  out [Lit "=== Analyzing ONNX model: "; PStr "models/face.onnx";
       Lit " ==="] = None /\
  out [Lit "ERROR: Model file not found: "; PStr "models/face.onnx"]
    = None /\
  out [Lit "Producer: "; PStr "pytorch"] = Some Sample.unicode_error /\
  result (Io.analyze_body out env "models/face.onnx")
    = Raise Sample.unicode_error /\
  result (Io.analyze_onnx_model out env "models/face.onnx") = Ok false.
Proof.
  intros out env.
  split; [reflexivity|]. split; [reflexivity|]. split; [reflexivity|].
  split; [reflexivity|].
  destruct (analyze_onnx_model_catches_body_failures out env
              "models/face.onnx" eq_refl eq_refl
              (fun e _ => eq_refl)) as (_ & _ & _ & _ & _ & _ & H).
  apply (H Sample.unicode_error). reflexivity.
Defined.

(** ** The batch driver on a console that can refuse a line *)

Lemma for_each_all {X} (l : list X) (body : X -> M unit)
  (ev : X -> Event) :
  (forall x, In x l ->
             result (body x) = Ok tt /\ In (ev x) (trace (body x))) ->
  result (for_each l body) = Ok tt /\
  (forall x, In x l -> In (ev x) (trace (for_each l body))).
Proof.
  induction l as [| x l IH]; intros H.
  - split; [reflexivity | contradiction].
  - destruct (H x (or_introl eq_refl)) as [Hr Ht].
    destruct IH as [IHr IHt].
    { intros y Hy. apply H. right. exact Hy. }
    cbn [for_each]. rewrite result_bind, Hr. split; [exact IHr|].
    intros y Hy. rewrite trace_bind, Hr. apply in_or_app.
    destruct Hy as [<- | Hy]; [left; exact Ht | right; apply IHt, Hy].
Qed.

Lemma Io_main_loop_body_ok (out : Stdout) (env : Env)
  (model_paths : list string) (i n : nat) (p : string) :
  takes_unguarded_lines out env model_paths ->
  In p model_paths ->
  result (Io.main_loop_body out env n (i, p)) = Ok tt /\
  In (header_line p) (trace (Io.main_loop_body out env n (i, p))).
Proof.
  intros (Hp & Hs & Hf & Hsep & Hblank) Hin.
  destruct (Hp p Hin) as (Hhead & Hmiss & Herr & Hbanner).
  pose proof (Io_analyze_onnx_model_result _ _ _ Hhead Hmiss Herr) as Hr.
  destruct (Io_analyze_onnx_model_header out env p Hhead) as [t Ht].
  destruct (Io.analyze_onnx_model out env p) as [t0 r] eqn:E.
  cbn [trace result fst snd] in Hr, Ht. subst t0 r.
  unfold Io.main_loop_body.
  rewrite (Io_print_taken out (progress_banner env i n p) (Hbanner i n)), E.
  cbn [bind].
  rewrite (Io_print_taken out separator Hsep), (Io_print_taken out [] Hblank).
  destruct (outcome_on out env p);
    [rewrite (Io_print_taken out success_banner Hs)
    |rewrite (Io_print_taken out failure_banner Hf)];
    destruct (i <? n - 1)%nat; cbn [bind ret app trace result fst snd];
    (split; [reflexivity | right; left; reflexivity]).
Qed.

(** X10.  On a console that takes the lines printed outside of the [try]
    of the inspector (progress lines, headers, "not found" lines, the
    "ERROR:" line of what a body raises, verdicts, separators and empty
    lines), the batch driver raises nothing and analyses every path of the
    list, whatever happened to the ones before and whatever the console
    does with the lines printed inside the [try]: the header line of each
    path is in the output. *)
Theorem main_analyses_every_path :
  forall (out : Stdout) (env : Env) (model_paths : list string),
    takes_unguarded_lines out env model_paths ->
    result (Io.main out env model_paths) = Ok tt /\
    (forall p, In p model_paths ->
               In (header_line p) (trace (Io.main out env model_paths))).
Proof.
  intros out env model_paths Htakes. unfold Io.main.
  destruct model_paths as [| q [| r rest]].
  - split; [reflexivity | contradiction].
  - cbn [List.length Nat.eqb getitem nth_error]. cbn [bind lift app].
    destruct Htakes as (Hp & _).
    destruct (Hp q (or_introl eq_refl)) as (Hhead & Hmiss & Herr & _).
    pose proof (Io_analyze_onnx_model_result _ _ _ Hhead Hmiss Herr) as Hr.
    destruct (Io_analyze_onnx_model_header out env q Hhead) as [t Ht].
    destruct (Io.analyze_onnx_model out env q) as [t0 r0].
    cbn [trace result fst snd] in Hr, Ht. subst t0 r0.
    cbn [bind ret app trace result fst snd].
    split; [reflexivity|].
    intros p [<- | []]. left. reflexivity.
  - cbn [List.length Nat.eqb].
    set (paths := q :: r :: rest) in *.
    set (n := S (S (List.length rest))).
    destruct (for_each_all (enumerate paths) (Io.main_loop_body out env n)
                (fun x => header_line (snd x))) as [Hres Htr].
    { intros [i p] Hx.
      apply (Io_main_loop_body_ok out env paths i n p Htakes).
      rewrite <- (enumerate_from_snd paths 0).
      apply (in_map snd) in Hx. exact Hx. }
    split; [exact Hres|].
    intros p Hp.
    rewrite <- (enumerate_from_snd paths 0) in Hp.
    apply in_map_iff in Hp as [[i p'] [Heq Hx]]. simpl in Heq. subst p'.
    apply (Htr (i, p) Hx).
Qed.

Lemma main_analyses_every_path_witness :
  let out := Sample.producer_stdout in
  let env := Sample.env true in
  let paths := ["models/absent.onnx"; "models/face.onnx"] in
  takes_unguarded_lines out env paths /\
  result (Io.analyze_body out env "models/face.onnx")
    = Raise Sample.unicode_error /\
  result (Io.main out env paths) = Ok tt /\
  In (header_line "models/face.onnx") (trace (Io.main out env paths)).
Proof.
  intros out env paths.
  assert (H : takes_unguarded_lines out env paths).
  { split; [|repeat split].
    intros p _. repeat split. }
  split; [exact H|]. split; [reflexivity|].
  destruct (main_analyses_every_path out env paths H) as [Hr Hin].
  split; [exact Hr|]. apply Hin. right. left. reflexivity.
Defined.
